(** * Algooee web API (src/app/web.py): model and properties

    The FastAPI application of [src/app/web.py] is embedded as route
    handlers written in a small state-and-exception monad.  The state is
    the Python process: the module-level [client] handle and a log of
    the calls issued to the market-data client.  The market-data client
    ([app.app.UpstoxClient]), the data-frame constructor and the
    prediction engine ([core.prediction.Prediction]) are collaborators
    that live outside [web.py]; they are taken as an interface
    ([Collaborators]) and every property is proved for all of its
    implementations. *)

From Stdlib Require Import String ZArith List Bool.
From Stdlib Require Import Floats.SpecFloat DecimalString.
Import ListNotations.
Open Scope string_scope.

(** ** Python values and exceptions *)

Module Py.

(** The values that travel through the routes: candle cells, JSON-like
    dictionaries (insertion ordered, hence association lists) and lists.
    Python [float] is IEEE binary64, modelled by [spec_float]. *)
Local Unset Elimination Schemes.
Inductive pyval : Type :=
| PyNone
| PyBool (b : bool)
| PyInt (z : Z)
| PyFloat (f : spec_float)
| PyStr (s : string)
| PyList (l : list pyval)
| PyDict (d : list (string * pyval)).
Local Set Elimination Schemes.

(** An exception object.  [HTTPException] is the one class [web.py]
    raises itself; every other exception is described by the names of
    the classes in its method resolution order and by its [str()]. *)
Inductive PyExn : Type :=
| HTTPException (status_code : Z) (detail : string)
| Exn (mro : list string) (message : string).

Definition mro_of (e : PyExn) : list string :=
  match e with
  | HTTPException _ _ => ["HTTPException"; "Exception"; "BaseException"; "object"]
  | Exn mro _ => mro
  end.

Fixpoint mem_string (x : string) (l : list string) : bool :=
  match l with
  | [] => false
  | y :: l' => String.eqb x y || mem_string x l'
  end.

(** [isinstance(e, cls)] *)
Definition isinstance (e : PyExn) (cls : string) : bool :=
  mem_string cls (mro_of e).

Definition string_of_Z (z : Z) : string :=
  NilZero.string_of_int (Z.to_int z).

(** [str(e)].  For [HTTPException] this is the web framework's
    [__str__]: [f"{self.status_code}: {self.detail}"]. *)
Definition str (e : PyExn) : string :=
  match e with
  | HTTPException status_code detail => string_of_Z status_code ++ ": " ++ detail
  | Exn _ message => message
  end.

(** [needle in hay] on strings. *)
Fixpoint infixb (needle hay : string) : bool :=
  String.prefix needle hay ||
  match hay with
  | EmptyString => false
  | String _ hay' => infixb needle hay'
  end.

(** Result of evaluating a piece of Python code. *)
Inductive outcome (A : Type) : Type :=
| Return (a : A)
| Raised (e : PyExn).
Arguments Return {A} a.
Arguments Raised {A} e.

Definition is_return {A} (o : outcome A) : bool :=
  match o with
  | Return _ => true
  | Raised _ => false
  end.

(** [0.0] and the comparison [x > 0] on floats. *)
Definition float_zero : spec_float := S754_zero false.
Definition float_gt_zero (x : spec_float) : bool := SFltb float_zero x.
Definition float_le_zero (x : spec_float) : bool := SFleb x float_zero.

End Py.
Import Py.

(** ** Request and response models (web.py, lines 21-36) *)

Record StockPredictionRequest : Type := {
  isin : string;
  start_date : string;
  end_date : string;
  interval : string;
  count : Z
}.

(** Building the request model from a body: [isin], [start_date] and
    [end_date] are required, [interval] and [count] may be left out and
    then take the defaults of the class, ["day"] and [1]. *)
Definition StockPredictionRequest_init
    (isin start_date end_date : string)
    (interval : option string) (count : option Z) : StockPredictionRequest :=
  {| isin := isin;
     start_date := start_date;
     end_date := end_date;
     interval := match interval with Some i => i | None => "day" end;
     count := match count with Some c => c | None => 1%Z end |}.

(** [data: List[List]]: rows of cells, no constraint on row length. *)
Record HistoricalCandleResponse : Type := {
  hc_isin : string;
  hc_data : list (list pyval);
  hc_timestamp : string
}.

Record PredictionResponse : Type := {
  pr_isin : string;
  predicted_high : spec_float;
  confidence : string
}.

(** ** Collaborators outside web.py *)

(** Keyword arguments of [client.get_historical_candles(...)]. *)
Record FetchArgs : Type := {
  a_isin : string;
  a_start_date : string;
  a_end_date : string;
  a_interval : string;
  a_count : Z
}.

(** What [web.py] imports and calls.  The reply of the provider may
    depend on the calls made before (first argument of
    [get_historical_candles]).  The methods of [Prediction] that mutate
    the object return the updated object. *)
Class Collaborators : Type := {
  Environ : Type;
  UpstoxClient : Type;
  UpstoxClient_init : Environ -> outcome UpstoxClient;
  get_historical_candles :
    UpstoxClient -> list FetchArgs -> FetchArgs -> outcome (list (list pyval));
  DataFrame : Type;
  pd_DataFrame : list (list pyval) -> list string -> outcome DataFrame;
  Prediction : Type;
  Prediction_init : DataFrame -> outcome Prediction;
  feature_engineering : Prediction -> outcome Prediction;
  train_model : Prediction -> outcome Prediction;
  predict_next_day : Prediction -> outcome spec_float;
  TemplateResponse : string -> outcome string
}.

(** ** The process and its monad *)

Section Web.
Context {ext : Collaborators}.

(** The Python process: the module-level variable [client] ([None] or
    a client object) and the calls made so far to the client's fetch
    operation, oldest first. *)
Record Process : Type := {
  client : option UpstoxClient;
  fetch_log : list FetchArgs
}.

(** A computation runs in a process and returns or raises; the process
    state survives a raise. *)
Definition M (A : Type) : Type := Process -> outcome A * Process.

Definition ret {A} (a : A) : M A := fun p => (Return a, p).

Definition raise {A} (e : PyExn) : M A := fun p => (Raised e, p).

Definition bind {A B} (m : M A) (k : A -> M B) : M B :=
  fun p =>
    match m p with
    | (Return a, p') => k a p'
    | (Raised e, p') => (Raised e, p')
    end.

Definition lift {A} (o : outcome A) : M A := fun p => (o, p).

(** [try: body  except cls as e: handler e] *)
Definition try_except {A} (body : M A) (cls : string) (handler : PyExn -> M A) : M A :=
  fun p =>
    match body p with
    | (Return a, p') => (Return a, p')
    | (Raised e, p') =>
        if isinstance e cls then handler e p' else (Raised e, p')
    end.

(** Reading the global [client]. *)
Definition get_client : M (option UpstoxClient) := fun p => (Return (client p), p).

(** The method call [c.get_historical_candles(...)]: logged, then
    answered by the provider. *)
Definition call_get_historical_candles (c : UpstoxClient) (a : FetchArgs)
  : M (list (list pyval)) :=
  fun p =>
    (get_historical_candles c (fetch_log p) a,
     {| client := client p; fetch_log := fetch_log p ++ [a] |}).

End Web.

Declare Scope py_scope.
Delimit Scope py_scope with py.
Notation "x <- m ;; k" := (bind m (fun x => k))
  (at level 100, m at next level, right associativity) : py_scope.
Open Scope py_scope.

(** ** Module initialisation and routes *)

Section Routes.
Context {ext : Collaborators}.

(** Lines 39-42: [try: client = UpstoxClient()  except ValueError: client = None].
    A raise that is not a [ValueError] aborts the import of the module. *)
Definition startup (env : Environ) : outcome Process :=
  match UpstoxClient_init env with
  | Return c => Return {| client := Some c; fetch_log := [] |}
  | Raised e =>
      if isinstance e "ValueError"
      then Return {| client := None; fetch_log := [] |}
      else Raised e
  end.

Definition fetch_args (request : StockPredictionRequest) : FetchArgs :=
  {| a_isin := isin request;
     a_start_date := start_date request;
     a_end_date := end_date request;
     a_interval := interval request;
     a_count := count request |}.

(** Lines 45-54. *)
Definition root : M string := lift (TemplateResponse "index.html").
Definition ui : M string := lift (TemplateResponse "index.html").

(** Lines 56-62. *)
Definition health : M pyval :=
  c <- get_client ;;
  ret (PyDict [("status", PyStr "healthy");
               ("api_configured", PyBool (match c with Some _ => true | None => false end))]).

(** Lines 64-102.  [if not client] holds exactly for [None]: a client
    object is true. *)
Definition historical_candles (request : StockPredictionRequest)
  : M HistoricalCandleResponse :=
  c <- get_client ;;
  match c with
  | None =>
      raise (HTTPException 503
               "Upstox API client not configured. Set UPSTOX_API_TOKEN in .env")
  | Some cl =>
      try_except
        (candles <- call_get_historical_candles cl (fetch_args request) ;;
         ret {| hc_isin := isin request;
                hc_data := candles;
                hc_timestamp := end_date request |})
        "Exception"
        (fun e => raise (HTTPException 400 ("Error fetching candles: " ++ str e)))
  end.

Definition headers : list string :=
  ["Timestamp"; "Open"; "High"; "Low"; "Close"; "Volume"; "Open Interest"].

Definition is_empty {A} (l : list A) : bool :=
  match l with
  | [] => true
  | _ :: _ => false
  end.

(** Lines 104-160.  [predict_next_day] yields a float, on which
    [float(...)] is the identity. *)
Definition predict_stock (request : StockPredictionRequest) : M PredictionResponse :=
  c <- get_client ;;
  match c with
  | None => raise (HTTPException 503 "Upstox API client not configured")
  | Some cl =>
      try_except
        (candles <- call_get_historical_candles cl (fetch_args request) ;;
         if is_empty candles
         then raise (HTTPException 404 "No data found for the given ISIN and date range")
         else
           df <- lift (pd_DataFrame candles headers) ;;
           predictor <- lift (Prediction_init df) ;;
           predictor <- lift (feature_engineering predictor) ;;
           predictor <- lift (train_model predictor) ;;
           high <- lift (predict_next_day predictor) ;;
           ret {| pr_isin := isin request;
                  predicted_high := high;
                  confidence := if float_gt_zero high then "high" else "moderate" |})
        "Exception"
        (fun e => raise (HTTPException 400 ("Prediction error: " ++ str e)))
  end.

(** Lines 162-191. *)
Definition stock (name isin : string) : pyval :=
  PyDict [("name", PyStr name); ("isin", PyStr isin)].

Definition get_stock_list : M pyval :=
  ret (PyDict
    [("stocks", PyList
       [ stock "Reliance Industries" "INE002A01018";
         stock "Bharti Airtel" "INE397D01024";
         stock "TCS" "INE467B01029";
         stock "ICICI Bank" "INE090A01021";
         stock "State Bank of India" "INE062A01020";
         stock "Infosys" "INE009A01021";
         stock "Hindustan Unilever" "INE030A01027";
         stock "ITC" "INE154A01025";
         stock "Mahindra & Mahindra" "INE101A01026";
         stock "Kotak Mahindra Bank" "INE237A01028";
         stock "HCL Technologies" "INE860A01027";
         stock "Sun Pharma" "INE044A01036";
         stock "Axis Bank" "INE238A01034";
         stock "UltraTech Cement" "INE481G01011";
         stock "Titan Company" "INE280A01028";
         stock "NTPC" "INE733E01010";
         stock "Asian Paints" "INE021A01026";
         stock "Tata Steel" "INE081A01020";
         stock "Tata Consumer Products" "INE192A01025";
         stock "Wipro" "INE075A01022";
         stock "Adani Enterprises" "INE423A01024";
         stock "Adani Ports" "INE742F01042" ])]).

(** ** HTTP layer *)

Inductive Request : Type :=
| GET_root
| GET_ui
| GET_health
| POST_historical_candles (body : StockPredictionRequest)
| POST_predict (body : StockPredictionRequest)
| GET_stocks.

Inductive Body : Type :=
| Html (page : string)
| Json (v : pyval)
| Candles (r : HistoricalCandleResponse)
| Predicted (r : PredictionResponse)
| Detail (detail : string).

Record HttpResponse : Type := {
  status : Z;
  body : Body
}.

(** What the framework sends for a handler's outcome: 200 with the
    returned value, the status and detail of a raised [HTTPException],
    500 for any other exception. *)
Definition respond {A} (wrap : A -> Body) (o : outcome A) : HttpResponse :=
  match o with
  | Return a => {| status := 200; body := wrap a |}
  | Raised (HTTPException status_code detail) =>
      {| status := status_code; body := Detail detail |}
  | Raised (Exn _ _) => {| status := 500; body := Detail "Internal Server Error" |}
  end.

Definition route {A} (wrap : A -> Body) (h : M A) (p : Process)
  : HttpResponse * Process :=
  (respond wrap (fst (h p)), snd (h p)).

Definition handle (r : Request) : Process -> HttpResponse * Process :=
  match r with
  | GET_root => route Html root
  | GET_ui => route Html ui
  | GET_health => route Json health
  | POST_historical_candles b => route Candles (historical_candles b)
  | POST_predict b => route Predicted (predict_stock b)
  | GET_stocks => route Json get_stock_list
  end.

(** The process after serving a sequence of requests. *)
Fixpoint serve (rs : list Request) (p : Process) : Process :=
  match rs with
  | [] => p
  | r :: rs' => serve rs' (snd (handle r p))
  end.

End Routes.

(** ** The routes seen from outside *)

Section Pipeline.
Context {ext : Collaborators}.

(** Sequencing of two steps that do not touch the process: the second
    runs on the result of the first, a raise of the first skips it. *)
Definition and_then {A B} (o : outcome A) (k : A -> outcome B) : outcome B :=
  match o with
  | Return a => k a
  | Raised e => Raised e
  end.

(** Lines 141-149 of [predict_stock] on their own: the table is built
    with the fixed headers, then the engine is constructed, engineers
    its features, trains and predicts. *)
Definition run_prediction (candles : list (list pyval)) : outcome spec_float :=
  and_then (pd_DataFrame candles headers) (fun df =>
  and_then (Prediction_init df) (fun predictor =>
  and_then (feature_engineering predictor) (fun predictor =>
  and_then (train_model predictor) (fun predictor =>
  predict_next_day predictor)))).

(** The fetch a request makes when the client is configured: one per
    data route, none for the others. *)
Definition fetches_of (r : Request) : list FetchArgs :=
  match r with
  | POST_historical_candles b => [fetch_args b]
  | POST_predict b => [fetch_args b]
  | _ => []
  end.

(** Routes that take no body. *)
Definition is_get (r : Request) : bool :=
  match r with
  | POST_historical_candles _ => false
  | POST_predict _ => false
  | _ => true
  end.

End Pipeline.

(** ** The reference catalog as the specification lists it (section 6) *)

Definition spec_catalog : list (string * string) :=
  [ ("Reliance Industries", "INE002A01018");
    ("Bharti Airtel", "INE397D01024");
    ("TCS", "INE467B01029");
    ("ICICI Bank", "INE090A01021");
    ("State Bank of India", "INE062A01020");
    ("Infosys", "INE009A01021");
    ("Hindustan Unilever", "INE030A01027");
    ("ITC", "INE154A01025");
    ("Mahindra & Mahindra", "INE101A01026");
    ("Kotak Mahindra Bank", "INE237A01028");
    ("HCL Technologies", "INE860A01027");
    ("Sun Pharma", "INE044A01036");
    ("Axis Bank", "INE238A01034");
    ("UltraTech Cement", "INE481G01011");
    ("Titan Company", "INE280A01028");
    ("NTPC", "INE733E01010");
    ("Asian Paints", "INE021A01026");
    ("Tata Steel", "INE081A01020");
    ("Tata Consumer Products", "INE192A01025");
    ("Wipro", "INE075A01022");
    ("Adani Enterprises", "INE423A01024");
    ("Adani Ports", "INE742F01042") ].

(** The wording of the predict route's not-found condition. *)
Definition not_found_wording : string :=
  "No data found for the given ISIN and date range".

(** A catalog entry as the JSON object [{name, isin}]. *)
Definition catalog_entry (e : string * string) : pyval :=
  PyDict [("name", PyStr (fst e)); ("isin", PyStr (snd e))].

(** ** A concrete set of collaborators

    A small stand-in for the provider and the engine, used to run the
    routes on concrete inputs.  The environment says whether the token
    is set; a missing token makes the constructor raise [ValueError],
    an unreachable provider makes it raise [ConnectionError].
    The provider knows one instrument, times out on the ISIN
    ["TIMEOUT"], returns ragged rows for ["RAGGED"] and has no data for
    anything else. *)
Module Demo.

Definition exception_mro (cls : string) : list string :=
  [cls; "Exception"; "BaseException"; "object"].

Definition f64 (m : positive) (e : Z) : spec_float := S754_finite false m e.

Definition reliance : list (list pyval) :=
  [ [PyStr "2024-01-01T00:00:00+05:30"; PyFloat (f64 2590 0); PyFloat (f64 2610 0);
     PyFloat (f64 2580 0); PyFloat (f64 2600 0); PyInt 4100000; PyInt 0];
    [PyStr "2024-01-02T00:00:00+05:30"; PyFloat (f64 2600 0); PyFloat (f64 2625 0);
     PyFloat (f64 2595 0); PyFloat (f64 2620 0); PyInt 3900000; PyInt 0] ].

Definition ragged : list (list pyval) :=
  [ [PyStr "2024-01-01"; PyInt 1];
    [PyStr "2024-01-02"; PyInt 1; PyInt 2; PyInt 3; PyInt 4; PyInt 5; PyInt 6; PyInt 7; PyNone] ].

Definition fetch (c : unit) (earlier : list FetchArgs) (a : FetchArgs)
  : outcome (list (list pyval)) :=
  if String.eqb (a_isin a) "INE002A01018" then Return reliance
  else if String.eqb (a_isin a) "RAGGED" then Return ragged
  else if String.eqb (a_isin a) "TIMEOUT"
       then Raised (Exn (exception_mro "TimeoutError") "Read timed out")
  else Return [].

Definition data_frame (rows : list (list pyval)) (columns : list string)
  : outcome (list (list pyval)) :=
  if forallb (fun row => Nat.eqb (length row) (length columns)) rows
  then Return rows
  else Raised (Exn (exception_mro "ValueError") "columns do not match the data").

Inductive environment : Type :=
| TokenSet
| TokenMissing
| ProviderDown.

Definition connect (env : environment) : outcome unit :=
  match env with
  | TokenSet => Return tt
  | TokenMissing =>
      Raised (Exn (exception_mro "ValueError") "UPSTOX_API_TOKEN is not set")
  | ProviderDown =>
      Raised (Exn ["ConnectionError"; "OSError"; "Exception"; "BaseException"; "object"]
                  "Connection refused")
  end.

#[local] Instance collaborators : Collaborators := {|
  Environ := environment;
  UpstoxClient := unit;
  UpstoxClient_init := connect;
  get_historical_candles := fetch;
  DataFrame := list (list pyval);
  pd_DataFrame := data_frame;
  Prediction := list (list pyval);
  Prediction_init := fun df => Return df;
  feature_engineering := fun m => Return m;
  train_model := fun m => Return m;
  predict_next_day := fun m => Return (f64 2630 0);
  TemplateResponse := fun name => Return name
|}.

Definition request (isin : string) : StockPredictionRequest :=
  StockPredictionRequest_init isin "2024-01-01" "2024-01-02" None None.

Definition configured : Process := {| client := Some tt; fetch_log := [] |}.
Definition unconfigured : Process := {| client := None; fetch_log := [] |}.

End Demo.

(** A provider whose fetch is interrupted from the keyboard:
    [KeyboardInterrupt] derives from [BaseException] only. *)
Module Interrupted.

Definition keyboard_interrupt : PyExn :=
  Exn ["KeyboardInterrupt"; "BaseException"; "object"] "".

#[local] Instance collaborators : Collaborators := {|
  Environ := Demo.environment;
  UpstoxClient := unit;
  UpstoxClient_init := Demo.connect;
  get_historical_candles := fun _ _ _ => Raised keyboard_interrupt;
  DataFrame := list (list pyval);
  pd_DataFrame := Demo.data_frame;
  Prediction := list (list pyval);
  Prediction_init := fun df => Return df;
  feature_engineering := fun m => Return m;
  train_model := fun m => Return m;
  predict_next_day := fun m => Return (Demo.f64 2630 0);
  TemplateResponse := fun name => Return name
|}.

Definition configured : Process := {| client := Some tt; fetch_log := [] |}.

End Interrupted.

(** The fetch that [Demo.request] leads to. *)
Definition two_day_args (isin : string) : FetchArgs :=
  {| a_isin := isin; a_start_date := "2024-01-01"; a_end_date := "2024-01-02";
     a_interval := "day"; a_count := 1 |}.

(** * Properties *)

(** ** Strings *)

Lemma prefix_app (a b : string) : String.prefix a (a ++ b) = true.
Proof.
  induction a as [| c a IH]; simpl.
  - destruct b; reflexivity.
  - rewrite IH. destruct (Ascii.ascii_dec c c); [reflexivity | congruence].
Qed.

Lemma infixb_prefix (needle hay : string) :
  String.prefix needle hay = true -> infixb needle hay = true.
Proof.
  intros H. destruct hay; cbn [infixb]; rewrite H; reflexivity.
Qed.

Lemma infixb_app (pre needle post : string) :
  infixb needle (pre ++ needle ++ post) = true.
Proof.
  induction pre as [| c pre IH].
  - change ("" ++ needle ++ post) with (needle ++ post).
    apply infixb_prefix. apply prefix_app.
  - cbn [append infixb]. rewrite IH. apply orb_true_r.
Qed.

Lemma append_empty (s : string) : s ++ "" = s.
Proof. induction s; simpl; congruence. Qed.

Lemma infixb_suffix (pre needle : string) : infixb needle (pre ++ needle) = true.
Proof.
  rewrite <- (append_empty needle) at 2. apply infixb_app.
Qed.

(** ** Floats against zero *)

Lemma float_le_zero_not_gt (x : spec_float) :
  float_le_zero x = true -> float_gt_zero x = false.
Proof.
  unfold float_le_zero, float_gt_zero, float_zero, SFleb, SFltb.
  destruct x as [s | s | | s m e]; simpl; try destruct s; simpl; congruence.
Qed.

Section Properties.
Context {ext : Collaborators}.

#[local] Arguments infixb : simpl never.

Ltac run :=
  unfold handle, route, respond, root, ui, health, historical_candles,
    predict_stock, get_stock_list, try_except, bind, ret, raise, lift,
    get_client, call_get_historical_candles;
  simpl.

(** ** The handle is never reassigned *)

Lemma handle_client (r : Request) (p : Process) :
  client (snd (handle r p)) = client p.
Proof.
  destruct p as [c log].
  destruct r as [| | | b | b |]; run; try reflexivity.
  - destruct c as [cl |]; simpl; [| reflexivity].
    destruct (get_historical_candles cl log (fetch_args b)) as [rows | e];
      simpl; [reflexivity |].
    destruct (isinstance e "Exception"); reflexivity.
  - destruct c as [cl |]; simpl; [| reflexivity].
    destruct (get_historical_candles cl log (fetch_args b)) as [rows | e];
      simpl.
    + destruct rows as [| row rows]; simpl; [reflexivity |].
      destruct (pd_DataFrame (row :: rows) headers) as [df | e]; simpl.
      * destruct (Prediction_init df) as [m | e]; simpl.
        -- destruct (feature_engineering m) as [m1 | e]; simpl.
           ++ destruct (train_model m1) as [m2 | e]; simpl.
              ** destruct (predict_next_day m2) as [h | e]; simpl; [reflexivity |].
                 destruct (isinstance e "Exception"); reflexivity.
              ** destruct (isinstance e "Exception"); reflexivity.
           ++ destruct (isinstance e "Exception"); reflexivity.
        -- destruct (isinstance e "Exception"); reflexivity.
      * destruct (isinstance e "Exception"); reflexivity.
    + destruct (isinstance e "Exception"); reflexivity.
Qed.

Lemma serve_client (rs : list Request) (p : Process) :
  client (serve rs p) = client p.
Proof.
  revert p. induction rs as [| r rs IH]; intros p; simpl.
  - reflexivity.
  - rewrite IH. apply handle_client.
Qed.

Lemma startup_client (env : Environ) (p : Process) :
  startup env = Return p ->
  client p = match UpstoxClient_init env with Return c => Some c | Raised _ => None end.
Proof.
  unfold startup. destruct (UpstoxClient_init env) as [c | e].
  - intros H; inversion H; reflexivity.
  - destruct (isinstance e "ValueError"); intros H; inversion H; reflexivity.
Qed.

(** ** Empty results *)

(** C1.  When the configured client's fetch returns an empty candle
    sequence, POST /api/predict answers with status 400, not 404, and
    its detail is the generic "Prediction error: ..." message with the
    not-found wording inside it; on the same fetch result
    POST /api/historical-candles answers 200 with [data] the empty
    list. *)
Theorem empty_fetch_by_route
    (request : StockPredictionRequest) (p : Process) (cl : UpstoxClient) :
  client p = Some cl ->
  get_historical_candles cl (fetch_log p) (fetch_args request) = Return [] ->
  (exists detail,
      fst (handle (POST_predict request) p) = {| status := 400; body := Detail detail |}
      /\ status (fst (handle (POST_predict request) p)) <> 404%Z
      /\ detail = "Prediction error: " ++ "404: " ++ not_found_wording
      /\ String.prefix "Prediction error: " detail = true
      /\ infixb not_found_wording detail = true)
  /\ fst (handle (POST_historical_candles request) p) =
       {| status := 200;
          body := Candles {| hc_isin := isin request;
                             hc_data := [];
                             hc_timestamp := end_date request |} |}.
Proof.
  intros Hc Hf. destruct p as [c log]. simpl in Hc, Hf. subst c.
  split.
  - exists ("Prediction error: " ++ "404: " ++ not_found_wording).
    run. rewrite Hf. simpl.
    repeat split; try reflexivity. discriminate.
  - run. rewrite Hf. reflexivity.
Qed.

(** ** Unavailable client *)

(** C2.  With the client handle unavailable ([None]), both
    POST /api/historical-candles and POST /api/predict answer 503 for
    every request body, and the client's fetch operation is not
    invoked: the process, and with it the log of fetch calls, is left as
    it was. *)
Theorem unavailable_client_short_circuits
    (request : StockPredictionRequest) (p : Process) :
  client p = None ->
  status (fst (handle (POST_historical_candles request) p)) = 503%Z
  /\ status (fst (handle (POST_predict request) p)) = 503%Z
  /\ snd (handle (POST_historical_candles request) p) = p
  /\ snd (handle (POST_predict request) p) = p
  /\ fetch_log (snd (handle (POST_historical_candles request) p)) = fetch_log p
  /\ fetch_log (snd (handle (POST_predict request) p)) = fetch_log p.
Proof.
  intros Hc. destruct p as [c log]. simpl in Hc. subst c.
  run. repeat split; reflexivity.
Qed.

(** ** Candles pass through *)

(** C3.  With a configured client whose fetch returns N candle rows,
    POST /api/historical-candles answers 200 with a [data] field that is
    exactly those rows: N of them, row by row and cell by cell in the
    same order (so rows of 7 fields stay rows of 7 fields), with [isin]
    the request's [isin] and [timestamp] the request's [end_date]. *)
Theorem historical_candles_round_trip
    (request : StockPredictionRequest) (p : Process) (cl : UpstoxClient)
    (rows : list (list pyval)) :
  client p = Some cl ->
  get_historical_candles cl (fetch_log p) (fetch_args request) = Return rows ->
  exists r,
    fst (handle (POST_historical_candles request) p) =
      {| status := 200; body := Candles r |}
    /\ hc_data r = rows
    /\ length (hc_data r) = length rows
    /\ (forall i, nth_error (hc_data r) i = nth_error rows i)
    /\ (forall i j, option_map (fun row => nth_error row j) (nth_error (hc_data r) i)
                  = option_map (fun row => nth_error row j) (nth_error rows i))
    /\ (Forall (fun row => length row = 7) rows ->
        Forall (fun row => length row = 7) (hc_data r))
    /\ hc_isin r = isin request
    /\ hc_timestamp r = end_date request.
Proof.
  intros Hc Hf. destruct p as [c log]. simpl in Hc, Hf. subst c.
  exists {| hc_isin := isin request; hc_data := rows; hc_timestamp := end_date request |}.
  run. rewrite Hf. simpl.
  repeat split; auto.
Qed.

(** C10.  The historical-candles route does not look at the shape of
    the rows: whatever sequence of rows the client's fetch returns, of
    any lengths, is the [data] field of the 200 response, unchanged. *)
Theorem historical_candles_rows_unchecked
    (request : StockPredictionRequest) (p : Process) (cl : UpstoxClient)
    (rows : list (list pyval)) :
  client p = Some cl ->
  get_historical_candles cl (fetch_log p) (fetch_args request) = Return rows ->
  fst (handle (POST_historical_candles request) p) =
    {| status := 200;
       body := Candles {| hc_isin := isin request;
                          hc_data := rows;
                          hc_timestamp := end_date request |} |}.
Proof.
  intros Hc Hf. destruct p as [c log]. simpl in Hc, Hf. subst c.
  run. rewrite Hf. reflexivity.
Qed.

(** ** Fetch failures *)

(** C7.  When the client's fetch raises a failure (an [Exception]:
    network, authentication or rejected parameters), both data routes
    answer 400, never 500 and never a success, and the detail is
    "Error fetching candles: " (historical route) or
    "Prediction error: " (predict route) followed by the failure's
    description, which the detail therefore contains. *)
Theorem fetch_failure_is_400
    (request : StockPredictionRequest) (p : Process) (cl : UpstoxClient)
    (e : PyExn) :
  client p = Some cl ->
  get_historical_candles cl (fetch_log p) (fetch_args request) = Raised e ->
  isinstance e "Exception" = true ->
  let historical := fst (handle (POST_historical_candles request) p) in
  let predict := fst (handle (POST_predict request) p) in
  historical = {| status := 400; body := Detail ("Error fetching candles: " ++ str e) |}
  /\ predict = {| status := 400; body := Detail ("Prediction error: " ++ str e) |}
  /\ infixb (str e) ("Error fetching candles: " ++ str e) = true
  /\ infixb (str e) ("Prediction error: " ++ str e) = true
  /\ status historical <> 500%Z /\ status historical <> 200%Z
  /\ status predict <> 500%Z /\ status predict <> 200%Z.
Proof.
  intros Hc Hf He. destruct p as [c log]. simpl in Hc, Hf. subst c.
  run. rewrite Hf. simpl. rewrite He. simpl.
  repeat split; try reflexivity; try discriminate.
  - apply (infixb_suffix "Error fetching candles: ").
  - apply (infixb_suffix "Prediction error: ").
Qed.

(** ** Confidence *)

(** C4.  In every successful POST /api/predict response, [confidence]
    is "high" when the predicted high is strictly greater than 0 and
    "moderate" when it is 0 or negative; it is never anything but one of
    these two strings. *)
Theorem confidence_labeling
    (request : StockPredictionRequest) (p : Process) (r : PredictionResponse) :
  fst (handle (POST_predict request) p) = {| status := 200; body := Predicted r |} ->
  (float_gt_zero (predicted_high r) = true -> confidence r = "high")
  /\ (float_le_zero (predicted_high r) = true -> confidence r = "moderate")
  /\ (confidence r = "high" <-> float_gt_zero (predicted_high r) = true)
  /\ (confidence r = "high" \/ confidence r = "moderate").
Proof.
  intros H. destruct p as [c log].
  assert (exists high,
             r = {| pr_isin := isin request;
                    predicted_high := high;
                    confidence := if float_gt_zero high then "high" else "moderate" |})
    as [high ->].
  { revert H. run.
    destruct c as [cl |]; simpl; [| discriminate].
    destruct (get_historical_candles cl log (fetch_args request)) as [rows | e]; simpl.
    - destruct rows as [| row rows]; simpl; [discriminate |].
      destruct (pd_DataFrame (row :: rows) headers) as [df | e]; simpl.
      + destruct (Prediction_init df) as [m | e]; simpl.
        * destruct (feature_engineering m) as [m1 | e]; simpl.
          -- destruct (train_model m1) as [m2 | e]; simpl.
             ++ destruct (predict_next_day m2) as [h | e]; simpl.
                ** intros H. inversion H. eexists. reflexivity.
                ** destruct (isinstance e "Exception"); simpl;
                     [| destruct e]; discriminate.
             ++ destruct (isinstance e "Exception"); simpl;
                  [| destruct e]; discriminate.
          -- destruct (isinstance e "Exception"); simpl;
               [| destruct e]; discriminate.
        * destruct (isinstance e "Exception"); simpl;
            [| destruct e]; discriminate.
      + destruct (isinstance e "Exception"); simpl;
          [| destruct e]; discriminate.
    - destruct (isinstance e "Exception"); simpl;
        [| destruct e]; discriminate. }
  simpl. repeat split.
  - intros ->. reflexivity.
  - intros Hle. rewrite (float_le_zero_not_gt _ Hle). reflexivity.
  - destruct (float_gt_zero high); [reflexivity | discriminate].
  - intros ->. reflexivity.
  - destruct (float_gt_zero high); [left | right]; reflexivity.
Qed.

(** ** Stock list *)

(** C5.  GET /api/stocks answers 200 with a dictionary whose single key
    is "stocks", holding the 22 entries of the catalog of section 6 as
    {name, isin} objects in that order, from Reliance Industries /
    INE002A01018 first to Adani Ports / INE742F01042 last; the answer
    is the same in every process state, so also after any sequence of
    requests, and the call leaves the process as it was. *)
Theorem stock_list_fixed (p : Process) :
  handle GET_stocks p =
    ({| status := 200;
        body := Json (PyDict [("stocks", PyList (map catalog_entry spec_catalog))]) |}, p)
  /\ length spec_catalog = 22
  /\ hd_error spec_catalog = Some ("Reliance Industries", "INE002A01018")
  /\ last spec_catalog ("", "") = ("Adani Ports", "INE742F01042")
  /\ (forall rs, fst (handle GET_stocks (serve rs p)) = fst (handle GET_stocks p)).
Proof.
  repeat split.
Qed.

(** ** Health *)

(** C6.  In a process that started, and after any sequence of requests,
    GET /health answers 200 with status "healthy" and [api_configured]
    true exactly when the construction of the client succeeded at
    startup; it makes no fetch call and leaves the process as it was,
    and the reported value is the same at every point of the process
    lifetime. *)
Theorem health_reports_configuration
    (env : Environ) (p0 : Process) (rs : list Request) :
  startup env = Return p0 ->
  handle GET_health (serve rs p0) =
    ({| status := 200;
        body := Json (PyDict [("status", PyStr "healthy");
                              ("api_configured",
                               PyBool (is_return (UpstoxClient_init env)))]) |},
     serve rs p0)
  /\ fst (handle GET_health (serve rs p0)) = fst (handle GET_health p0).
Proof.
  intros H. pose proof (startup_client env p0 H) as Hc.
  run. rewrite serve_client, Hc.
  destruct (UpstoxClient_init env); split; reflexivity.
Qed.

(** ** Defaults *)

(** C8.  A request body without [interval] and [count] gives the same
    request as one with interval "day" and count 1: both routes answer
    it identically and leave the same process state, and with a
    configured client the fetch is called with "day" and 1. *)
Theorem defaults_are_day_and_1 (i s e : string) (p : Process) :
  let omitted := StockPredictionRequest_init i s e None None in
  let explicit := StockPredictionRequest_init i s e (Some "day") (Some 1%Z) in
  let args := {| a_isin := i; a_start_date := s; a_end_date := e;
                 a_interval := "day"; a_count := 1 |} in
  omitted = explicit
  /\ handle (POST_historical_candles omitted) p = handle (POST_historical_candles explicit) p
  /\ handle (POST_predict omitted) p = handle (POST_predict explicit) p
  /\ fetch_args omitted = args
  /\ fetch_log (snd (handle (POST_historical_candles omitted) p)) =
       match client p with
       | Some _ => (fetch_log p ++ [args])%list
       | None => fetch_log p
       end
  /\ fetch_log (snd (handle (POST_predict omitted) p)) =
       match client p with
       | Some _ => (fetch_log p ++ [args])%list
       | None => fetch_log p
       end.
Proof.
  destruct p as [c log]. cbv zeta.
  repeat split.
  - run. destruct c as [cl |]; simpl; [| reflexivity].
    match goal with
    | |- context [get_historical_candles ?a ?b ?c] =>
        destruct (get_historical_candles a b c) as [rows | x]
    end; simpl; [reflexivity |].
    destruct (isinstance x "Exception"); reflexivity.
  - run. destruct c as [cl |]; simpl; [| reflexivity].
    match goal with
    | |- context [get_historical_candles ?a ?b ?c] =>
        destruct (get_historical_candles a b c) as [rows | x]
    end; simpl.
    + destruct rows as [| row rows]; simpl; [reflexivity |].
      destruct (pd_DataFrame (row :: rows) headers) as [df | x]; simpl.
      * destruct (Prediction_init df) as [m | x]; simpl.
        -- destruct (feature_engineering m) as [m1 | x]; simpl.
           ++ destruct (train_model m1) as [m2 | x]; simpl.
              ** destruct (predict_next_day m2) as [h | x]; simpl; [reflexivity |].
                 destruct (isinstance x "Exception"); reflexivity.
              ** destruct (isinstance x "Exception"); reflexivity.
           ++ destruct (isinstance x "Exception"); reflexivity.
        -- destruct (isinstance x "Exception"); reflexivity.
      * destruct (isinstance x "Exception"); reflexivity.
    + destruct (isinstance x "Exception"); reflexivity.
Qed.

(** ** Startup *)

(** C9.  When the construction of the client raises at process start,
    the module catches it only if it is a [ValueError]: then the handle
    is [None] and the process serves (health answers 200 with
    [api_configured] false); an exception that is not a [ValueError]
    propagates and startup fails with it. *)
Theorem startup_catches_only_ValueError (env : Environ) (e : PyExn) :
  UpstoxClient_init env = Raised e ->
  startup env =
    (if isinstance e "ValueError"
     then Return {| client := None; fetch_log := [] |}
     else Raised e)
  /\ (isinstance e "ValueError" = true ->
      exists p0, startup env = Return p0 /\ client p0 = None
        /\ fst (handle GET_health p0) =
             {| status := 200;
                body := Json (PyDict [("status", PyStr "healthy");
                                      ("api_configured", PyBool false)]) |})
  /\ (isinstance e "ValueError" = false -> startup env = Raised e).
Proof.
  intros H. unfold startup. rewrite H.
  repeat split.
  - intros ->. eexists. repeat split.
  - intros ->. reflexivity.
Qed.

End Properties.

(** * Concrete runs *)

Section Runs.
#[local] Existing Instance Demo.collaborators.

(** An instrument the provider has no data for. *)
Lemma empty_fetch_by_route_witness :
  client Demo.configured = Some tt
  /\ get_historical_candles tt [] (fetch_args (Demo.request "INE009A01021")) = Return []
  /\ fst (handle (POST_predict (Demo.request "INE009A01021")) Demo.configured) =
       {| status := 400;
          body := Detail
            "Prediction error: 404: No data found for the given ISIN and date range" |}
  /\ fst (handle (POST_historical_candles (Demo.request "INE009A01021")) Demo.configured) =
       {| status := 200;
          body := Candles {| hc_isin := "INE009A01021";
                             hc_data := [];
                             hc_timestamp := "2024-01-02" |} |}.
Proof.
  destruct (empty_fetch_by_route (Demo.request "INE009A01021") Demo.configured tt)
    as [[detail [Hp [_ [Hd _]]]] Hh]; [reflexivity | reflexivity |].
  split; [reflexivity |]. split; [reflexivity |]. split.
  - rewrite Hp, Hd. reflexivity.
  - exact Hh.
Defined.

Lemma unavailable_client_short_circuits_witness :
  client Demo.unconfigured = None
  /\ status (fst (handle (POST_historical_candles (Demo.request "INE002A01018"))
                    Demo.unconfigured)) = 503%Z
  /\ status (fst (handle (POST_predict (Demo.request "INE002A01018"))
                    Demo.unconfigured)) = 503%Z
  /\ fetch_log (snd (handle (POST_predict (Demo.request "INE002A01018"))
                       Demo.unconfigured)) = [].
Proof.
  destruct (unavailable_client_short_circuits (Demo.request "INE002A01018")
              Demo.unconfigured) as [Hh [Hp [_ [_ [_ Hl]]]]]; [reflexivity |].
  split; [reflexivity |]. split; [exact Hh |]. split; [exact Hp | exact Hl].
Defined.

Lemma historical_candles_round_trip_witness :
  client Demo.configured = Some tt
  /\ get_historical_candles tt [] (fetch_args (Demo.request "INE002A01018")) =
       Return Demo.reliance
  /\ exists r,
       fst (handle (POST_historical_candles (Demo.request "INE002A01018"))
              Demo.configured) = {| status := 200; body := Candles r |}
       /\ hc_data r = Demo.reliance
       /\ length (hc_data r) = 2
       /\ hc_isin r = "INE002A01018"
       /\ hc_timestamp r = "2024-01-02".
Proof.
  destruct (historical_candles_round_trip (Demo.request "INE002A01018")
              Demo.configured tt Demo.reliance)
    as [r [Hr [Hd [Hn [_ [_ [_ [Hi Ht]]]]]]]]; [reflexivity | reflexivity |].
  split; [reflexivity |]. split; [reflexivity |].
  exists r. split; [exact Hr |]. split; [exact Hd |]. split; [exact Hn |].
  split; [exact Hi | exact Ht].
Defined.

(** Rows of 2 and of 9 cells come back as they are. *)
Lemma historical_candles_rows_unchecked_witness :
  client Demo.configured = Some tt
  /\ get_historical_candles tt [] (fetch_args (Demo.request "RAGGED")) = Return Demo.ragged
  /\ map (@length pyval) Demo.ragged = [2; 9]
  /\ fst (handle (POST_historical_candles (Demo.request "RAGGED")) Demo.configured) =
       {| status := 200;
          body := Candles {| hc_isin := "RAGGED";
                             hc_data := Demo.ragged;
                             hc_timestamp := "2024-01-02" |} |}.
Proof.
  split; [reflexivity |]. split; [reflexivity |]. split; [reflexivity |].
  apply (historical_candles_rows_unchecked (Demo.request "RAGGED") Demo.configured tt
           Demo.ragged); reflexivity.
Defined.

Lemma fetch_failure_is_400_witness :
  client Demo.configured = Some tt
  /\ get_historical_candles tt [] (fetch_args (Demo.request "TIMEOUT")) =
       Raised (Exn (Demo.exception_mro "TimeoutError") "Read timed out")
  /\ fst (handle (POST_historical_candles (Demo.request "TIMEOUT")) Demo.configured) =
       {| status := 400; body := Detail "Error fetching candles: Read timed out" |}
  /\ fst (handle (POST_predict (Demo.request "TIMEOUT")) Demo.configured) =
       {| status := 400; body := Detail "Prediction error: Read timed out" |}.
Proof.
  destruct (fetch_failure_is_400 (Demo.request "TIMEOUT") Demo.configured tt
              (Exn (Demo.exception_mro "TimeoutError") "Read timed out"))
    as [Hh [Hp _]]; [reflexivity | reflexivity | reflexivity |].
  split; [reflexivity |]. split; [reflexivity |]. split; [exact Hh | exact Hp].
Defined.

Lemma confidence_labeling_witness :
  fst (handle (POST_predict (Demo.request "INE002A01018")) Demo.configured) =
    {| status := 200;
       body := Predicted {| pr_isin := "INE002A01018";
                            predicted_high := Demo.f64 2630 0;
                            confidence := "high" |} |}
  /\ float_gt_zero (Demo.f64 2630 0) = true.
Proof.
  split; [reflexivity |].
  apply (confidence_labeling (Demo.request "INE002A01018") Demo.configured
           {| pr_isin := "INE002A01018";
              predicted_high := Demo.f64 2630 0;
              confidence := "high" |}); reflexivity.
Defined.

Lemma health_reports_configuration_witness :
  startup (ext := Demo.collaborators) Demo.TokenSet = Return Demo.configured
  /\ fst (handle GET_health
            (serve [POST_predict (Demo.request "INE002A01018"); GET_stocks]
               Demo.configured)) =
       {| status := 200;
          body := Json (PyDict [("status", PyStr "healthy");
                                ("api_configured", PyBool true)]) |}
  /\ startup (ext := Demo.collaborators) Demo.TokenMissing = Return Demo.unconfigured
  /\ fst (handle GET_health
            (serve [POST_predict (Demo.request "INE002A01018"); GET_stocks]
               Demo.unconfigured)) =
       {| status := 200;
          body := Json (PyDict [("status", PyStr "healthy");
                                ("api_configured", PyBool false)]) |}.
Proof.
  destruct (health_reports_configuration (ext := Demo.collaborators) Demo.TokenSet Demo.configured
              [POST_predict (Demo.request "INE002A01018"); GET_stocks] eq_refl)
    as [H1 _].
  destruct (health_reports_configuration (ext := Demo.collaborators) Demo.TokenMissing Demo.unconfigured
              [POST_predict (Demo.request "INE002A01018"); GET_stocks] eq_refl)
    as [H2 _].
  split; [reflexivity |]. split; [rewrite H1; reflexivity |].
  split; [reflexivity |]. rewrite H2. reflexivity.
Defined.

Lemma startup_catches_only_ValueError_witness :
  UpstoxClient_init (Collaborators := Demo.collaborators) Demo.TokenMissing =
    Raised (Exn (Demo.exception_mro "ValueError") "UPSTOX_API_TOKEN is not set")
  /\ startup (ext := Demo.collaborators) Demo.TokenMissing = Return Demo.unconfigured
  /\ UpstoxClient_init (Collaborators := Demo.collaborators) Demo.ProviderDown =
       Raised (Exn ["ConnectionError"; "OSError"; "Exception"; "BaseException"; "object"]
                 "Connection refused")
  /\ startup (ext := Demo.collaborators) Demo.ProviderDown =
       Raised (Exn ["ConnectionError"; "OSError"; "Exception"; "BaseException"; "object"]
                 "Connection refused").
Proof.
  split; [reflexivity |]. split; [| split; [reflexivity |]].
  - apply (startup_catches_only_ValueError (ext := Demo.collaborators) Demo.TokenMissing
             (Exn (Demo.exception_mro "ValueError") "UPSTOX_API_TOKEN is not set")
             eq_refl).
  - apply (startup_catches_only_ValueError (ext := Demo.collaborators) Demo.ProviderDown
             (Exn ["ConnectionError"; "OSError"; "Exception"; "BaseException"; "object"]
                "Connection refused")
             eq_refl).
    reflexivity.
Defined.

End Runs.

(** * Further properties of the routes *)

Section RouteProperties.
Context {ext : Collaborators}.

#[local] Arguments infixb : simpl never.

Ltac unfold_routes :=
  unfold handle, route, respond, root, ui, health, historical_candles,
    predict_stock, get_stock_list, try_except, bind, ret, raise, lift,
    get_client, call_get_historical_candles;
  simpl.

(** ** The data handlers with a configured client, in one equation each *)

Lemma historical_candles_run
    (request : StockPredictionRequest) (cl : UpstoxClient) (log : list FetchArgs) :
  historical_candles request {| client := Some cl; fetch_log := log |} =
    (match get_historical_candles cl log (fetch_args request) with
     | Return rows =>
         Return {| hc_isin := isin request;
                   hc_data := rows;
                   hc_timestamp := end_date request |}
     | Raised e =>
         if isinstance e "Exception"
         then Raised (HTTPException 400 ("Error fetching candles: " ++ str e))
         else Raised e
     end,
     {| client := Some cl; fetch_log := log ++ [fetch_args request] |}).
Proof.
  unfold_routes.
  destruct (get_historical_candles cl log (fetch_args request)) as [rows | e]; simpl;
    [reflexivity |].
  destruct (isinstance e "Exception"); reflexivity.
Qed.

Lemma predict_stock_run
    (request : StockPredictionRequest) (cl : UpstoxClient) (log : list FetchArgs) :
  predict_stock request {| client := Some cl; fetch_log := log |} =
    (match
        match get_historical_candles cl log (fetch_args request) with
        | Return [] => Raised (HTTPException 404 not_found_wording)
        | Return rows =>
            and_then (run_prediction rows) (fun high =>
              Return {| pr_isin := isin request;
                        predicted_high := high;
                        confidence :=
                          if float_gt_zero high then "high" else "moderate" |})
        | Raised e => Raised e
        end
      with
      | Return r => Return r
      | Raised e =>
          if isinstance e "Exception"
          then Raised (HTTPException 400 ("Prediction error: " ++ str e))
          else Raised e
      end,
      {| client := Some cl; fetch_log := log ++ [fetch_args request] |}).
Proof.
  unfold_routes. unfold run_prediction, and_then.
  destruct (get_historical_candles cl log (fetch_args request)) as [rows | e]; simpl.
  - destruct rows as [| row rows]; simpl; [reflexivity |].
    destruct (pd_DataFrame (row :: rows) headers) as [df | e]; simpl.
    + destruct (Prediction_init df) as [m | e]; simpl.
      * destruct (feature_engineering m) as [m1 | e]; simpl.
        -- destruct (train_model m1) as [m2 | e]; simpl.
           ++ destruct (predict_next_day m2) as [h | e]; simpl; [reflexivity |].
              destruct (isinstance e "Exception"); reflexivity.
           ++ destruct (isinstance e "Exception"); reflexivity.
        -- destruct (isinstance e "Exception"); reflexivity.
      * destruct (isinstance e "Exception"); reflexivity.
    + destruct (isinstance e "Exception"); reflexivity.
  - destruct (isinstance e "Exception"); reflexivity.
Qed.

(** What the framework sends once the [except Exception] clause of a
    data route has seen the outcome of its [try] block. *)
Lemma respond_except {A} (wrap : A -> Body) (label : string) (o : outcome A) :
  respond wrap
    match o with
    | Return r => Return r
    | Raised e =>
        if isinstance e "Exception"
        then Raised (HTTPException 400 (label ++ str e))
        else Raised e
    end =
  match o with
  | Return r => {| status := 200; body := wrap r |}
  | Raised e =>
      if isinstance e "Exception"
      then {| status := 400; body := Detail (label ++ str e) |}
      else {| status := 500; body := Detail "Internal Server Error" |}
  end.
Proof.
  destruct o as [r | e]; [reflexivity |].
  destruct e as [code detail | mro message].
  - reflexivity.
  - destruct (isinstance (Exn mro message) "Exception"); reflexivity.
Qed.

Lemma handle_historical_run
    (request : StockPredictionRequest) (cl : UpstoxClient) (log : list FetchArgs) :
  fst (handle (POST_historical_candles request) {| client := Some cl; fetch_log := log |}) =
    match get_historical_candles cl log (fetch_args request) with
    | Return rows =>
        {| status := 200;
           body := Candles {| hc_isin := isin request;
                              hc_data := rows;
                              hc_timestamp := end_date request |} |}
    | Raised e =>
        if isinstance e "Exception"
        then {| status := 400; body := Detail ("Error fetching candles: " ++ str e) |}
        else {| status := 500; body := Detail "Internal Server Error" |}
    end.
Proof.
  unfold handle, route. rewrite historical_candles_run. cbn [fst].
  destruct (get_historical_candles cl log (fetch_args request)) as [rows | e];
    [reflexivity |].
  apply (respond_except Candles "Error fetching candles: " (Raised e)).
Qed.

Lemma handle_predict_run
    (request : StockPredictionRequest) (cl : UpstoxClient) (log : list FetchArgs) :
  fst (handle (POST_predict request) {| client := Some cl; fetch_log := log |}) =
    match get_historical_candles cl log (fetch_args request) with
    | Return [] =>
        {| status := 400;
           body := Detail ("Prediction error: " ++ "404: " ++ not_found_wording) |}
    | Return rows =>
        match run_prediction rows with
        | Return high =>
            {| status := 200;
               body := Predicted
                 {| pr_isin := isin request;
                    predicted_high := high;
                    confidence := if float_gt_zero high then "high" else "moderate" |} |}
        | Raised e =>
            if isinstance e "Exception"
            then {| status := 400; body := Detail ("Prediction error: " ++ str e) |}
            else {| status := 500; body := Detail "Internal Server Error" |}
        end
    | Raised e =>
        if isinstance e "Exception"
        then {| status := 400; body := Detail ("Prediction error: " ++ str e) |}
        else {| status := 500; body := Detail "Internal Server Error" |}
    end.
Proof.
  unfold handle, route. rewrite predict_stock_run. cbn [fst].
  destruct (get_historical_candles cl log (fetch_args request)) as [rows | e].
  - destruct rows as [| row rows]; [reflexivity |].
    destruct (run_prediction (row :: rows)) as [high | e]; [reflexivity |].
    apply (respond_except Predicted "Prediction error: " (Raised e)).
  - apply (respond_except Predicted "Prediction error: " (Raised e)).
Qed.

Lemma handle_data_unconfigured (request : StockPredictionRequest) (log : list FetchArgs) :
  handle (POST_historical_candles request) {| client := None; fetch_log := log |} =
    ({| status := 503;
        body := Detail "Upstox API client not configured. Set UPSTOX_API_TOKEN in .env" |},
     {| client := None; fetch_log := log |})
  /\ handle (POST_predict request) {| client := None; fetch_log := log |} =
    ({| status := 503; body := Detail "Upstox API client not configured" |},
     {| client := None; fetch_log := log |}).
Proof. split; reflexivity. Qed.

Lemma handle_data_log (r : Request) (cl : UpstoxClient) (log : list FetchArgs) :
  snd (handle r {| client := Some cl; fetch_log := log |}) =
    {| client := Some cl; fetch_log := log ++ fetches_of r |}.
Proof.
  destruct r as [| | | b | b |]; unfold handle, route; cbn [fetches_of];
    rewrite ?historical_candles_run, ?predict_stock_run; cbn [snd];
    try (rewrite app_nil_r; reflexivity); reflexivity.
Qed.

(** ** One fetch per data request *)

(** X1.  With a configured client, a data route calls the client's
    fetch exactly once, with the five fields of the request unchanged,
    whatever the fetch then returns or raises; nothing else of the
    process changes. *)
Theorem data_route_fetches_once
    (request : StockPredictionRequest) (p : Process) (cl : UpstoxClient) :
  client p = Some cl ->
  let args := {| a_isin := isin request;
                 a_start_date := start_date request;
                 a_end_date := end_date request;
                 a_interval := interval request;
                 a_count := count request |} in
  snd (handle (POST_historical_candles request) p) =
    {| client := Some cl; fetch_log := fetch_log p ++ [args] |}
  /\ snd (handle (POST_predict request) p) =
    {| client := Some cl; fetch_log := fetch_log p ++ [args] |}.
Proof.
  intros Hc. destruct p as [c log]. simpl in Hc. subst c. cbv zeta.
  split.
  - apply (handle_data_log (POST_historical_candles request)).
  - apply (handle_data_log (POST_predict request)).
Qed.

(** X2.  After any sequence of requests served by a process with a
    configured client, the fetch log has grown by exactly the fetches of
    the data requests of the sequence, in order: one call per data
    request, none for the other routes, no caching and no retry. *)
Theorem serve_fetch_log (rs : list Request) (p : Process) (cl : UpstoxClient) :
  client p = Some cl ->
  fetch_log (serve rs p) = (fetch_log p ++ flat_map fetches_of rs)%list.
Proof.
  revert p. induction rs as [| r rs IH]; intros p Hc.
  - simpl. rewrite app_nil_r. reflexivity.
  - destruct p as [c log]. simpl in Hc. subst c.
    cbn [serve flat_map]. rewrite handle_data_log.
    rewrite IH by reflexivity. cbn [fetch_log].
    rewrite app_assoc. reflexivity.
Qed.

(** X3.  A process without client never calls the fetch: after any
    sequence of requests its state is what it was, and every data
    request of the sequence and after it is answered 503. *)
Theorem unconfigured_never_fetches
    (rs : list Request) (p : Process) (request : StockPredictionRequest) :
  client p = None ->
  serve rs p = p
  /\ status (fst (handle (POST_historical_candles request) (serve rs p))) = 503%Z
  /\ status (fst (handle (POST_predict request) (serve rs p))) = 503%Z.
Proof.
  intros Hc.
  assert (serve rs p = p) as ->.
  { destruct p as [c log]. simpl in Hc. subst c.
    induction rs as [| r rs IH]; [reflexivity |].
    cbn [serve].
    replace (snd (handle r {| client := None; fetch_log := log |}))
      with {| client := None; fetch_log := log |}; [exact IH |].
    destruct r as [| | | b | b |]; reflexivity. }
  destruct p as [c log]. simpl in Hc. subst c.
  repeat split.
Qed.

(** X4.  The routes without body (home, ui, health, stock list) leave
    the process as it was: they read the client handle at most and make
    no fetch. *)
Theorem get_routes_leave_process (r : Request) (p : Process) :
  is_get r = true ->
  snd (handle r p) = p.
Proof.
  destruct r; simpl; intros H; try discriminate; reflexivity.
Qed.

(** ** Status codes of the data routes *)

Lemma data_status_503 (request : StockPredictionRequest) (p : Process) :
  (status (fst (handle (POST_historical_candles request) p)) = 503%Z <-> client p = None)
  /\ (status (fst (handle (POST_predict request) p)) = 503%Z <-> client p = None).
Proof.
  destruct p as [[cl |] log]; cbn [client].
  - rewrite handle_historical_run, handle_predict_run.
    split; (split; [| discriminate]); intros H; exfalso; revert H.
    + destruct (get_historical_candles cl log (fetch_args request)) as [rows | e];
        [| destruct (isinstance e "Exception")]; discriminate.
    + destruct (get_historical_candles cl log (fetch_args request)) as [rows | e].
      * destruct rows as [| row rows]; [discriminate |].
        destruct (run_prediction (row :: rows)) as [high | e];
          [| destruct (isinstance e "Exception")]; discriminate.
      * destruct (isinstance e "Exception"); discriminate.
  - split; split; reflexivity.
Qed.

(** X5.  A data route answers 503 exactly when the client handle is
    [None]. *)
Theorem status_503_iff_unconfigured (request : StockPredictionRequest) (p : Process) :
  (status (fst (handle (POST_historical_candles request) p)) = 503%Z <-> client p = None)
  /\ (status (fst (handle (POST_predict request) p)) = 503%Z <-> client p = None).
Proof. exact (data_status_503 request p). Qed.

(** X6.  The status of a data route is one of 200, 400, 500 and 503;
    in particular the predict route never answers 404, although it
    raises a 404 inside its [try] block. *)
Theorem data_route_statuses (request : StockPredictionRequest) (p : Process) :
  In (status (fst (handle (POST_historical_candles request) p))) [200; 400; 500; 503]%Z
  /\ In (status (fst (handle (POST_predict request) p))) [200; 400; 500; 503]%Z
  /\ status (fst (handle (POST_predict request) p)) <> 404%Z.
Proof.
  assert (forall x, In x [200; 400; 500; 503]%Z -> x <> 404%Z) as H404.
  { intros x [<- | [<- | [<- | [<- | []]]]]; discriminate. }
  assert (In (status (fst (handle (POST_predict request) p))) [200; 400; 500; 503]%Z)
    as Hp.
  { destruct p as [[cl |] log].
    - rewrite handle_predict_run.
      destruct (get_historical_candles cl log (fetch_args request)) as [rows | e].
      + destruct rows as [| row rows]; [simpl; tauto |].
        destruct (run_prediction (row :: rows)) as [high | e];
          [| destruct (isinstance e "Exception")]; simpl; tauto.
      + destruct (isinstance e "Exception"); simpl; tauto.
    - simpl. tauto. }
  split; [| split; [exact Hp | exact (H404 _ Hp)]].
  destruct p as [[cl |] log].
  - rewrite handle_historical_run.
    destruct (get_historical_candles cl log (fetch_args request)) as [rows | e];
      [| destruct (isinstance e "Exception")]; simpl; tauto.
  - simpl. tauto.
Qed.


(** X8.  An exception of the fetch that is not an [Exception] (one
    that derives from [BaseException] only) is not caught by either
    data route: the handler raises it unchanged, after the one fetch
    call, and the answer is not a 400. *)
Theorem non_Exception_propagates
    (request : StockPredictionRequest) (p : Process) (cl : UpstoxClient) (e : PyExn) :
  client p = Some cl ->
  get_historical_candles cl (fetch_log p) (fetch_args request) = Raised e ->
  isinstance e "Exception" = false ->
  fst (historical_candles request p) = Raised e
  /\ fst (predict_stock request p) = Raised e
  /\ status (fst (handle (POST_historical_candles request) p)) = 500%Z
  /\ status (fst (handle (POST_predict request) p)) = 500%Z.
Proof.
  intros Hc Hf He. destruct p as [c log]. simpl in Hc, Hf. subst c.
  rewrite historical_candles_run, predict_stock_run,
    handle_historical_run, handle_predict_run.
  rewrite Hf, He. repeat split.
Qed.

(** ** Outcomes of the predict route *)


(** X10.  A 200 answer of POST /api/predict can only come from a
    configured client whose fetch returned at least one row and an
    engine that ran through on exactly those rows; the answer carries
    the request's [isin] and the engine's value. *)
Theorem predict_success_only_if
    (request : StockPredictionRequest) (p : Process) :
  status (fst (handle (POST_predict request) p)) = 200%Z ->
  exists cl rows high,
    client p = Some cl
    /\ get_historical_candles cl (fetch_log p) (fetch_args request) = Return rows
    /\ rows <> []
    /\ run_prediction rows = Return high
    /\ body (fst (handle (POST_predict request) p)) =
         Predicted {| pr_isin := isin request;
                      predicted_high := high;
                      confidence := if float_gt_zero high then "high" else "moderate" |}.
Proof.
  destruct p as [[cl |] log]; [| discriminate].
  rewrite handle_predict_run. cbn [client fetch_log].
  destruct (get_historical_candles cl log (fetch_args request)) as [rows | e] eqn:Hf.
  - destruct rows as [| row rows]; [discriminate |].
    destruct (run_prediction (row :: rows)) as [high | e] eqn:Hrun.
    + intros _. exists cl, (row :: rows), high.
      split; [reflexivity |]. split; [exact Hf |].
      split; [discriminate |]. split; [exact Hrun | reflexivity].
    + destruct (isinstance e "Exception"); discriminate.
  - destruct (isinstance e "Exception"); discriminate.
Qed.

(** X11.  When the fetch returned rows and building the table or any
    step of the engine raises an [Exception], POST /api/predict answers
    400 with detail "Prediction error: " followed by the exception's
    description; the fetch has been made once. *)
Theorem engine_failure_is_400
    (request : StockPredictionRequest) (p : Process) (cl : UpstoxClient)
    (rows : list (list pyval)) (e : PyExn) :
  client p = Some cl ->
  get_historical_candles cl (fetch_log p) (fetch_args request) = Return rows ->
  rows <> [] ->
  run_prediction rows = Raised e ->
  isinstance e "Exception" = true ->
  handle (POST_predict request) p =
    ({| status := 400; body := Detail ("Prediction error: " ++ str e) |},
     {| client := Some cl; fetch_log := fetch_log p ++ [fetch_args request] |}).
Proof.
  intros Hc Hf Hne Hrun He. destruct p as [c log]. simpl in Hc, Hf. subst c.
  rewrite (surjective_pairing (handle _ _)).
  rewrite handle_predict_run, (handle_data_log (POST_predict request)), Hf.
  destruct rows as [| row rows]; [congruence |].
  rewrite Hrun, He. reflexivity.
Qed.

(** ** Outcomes of the historical route *)

(** X12.  POST /api/historical-candles answers 200 exactly when the
    client is configured and its fetch returns, an empty result
    included; every other case is an error answer. *)
Theorem historical_success_iff (request : StockPredictionRequest) (p : Process) :
  status (fst (handle (POST_historical_candles request) p)) = 200%Z <->
  exists cl rows,
    client p = Some cl
    /\ get_historical_candles cl (fetch_log p) (fetch_args request) = Return rows.
Proof.
  destruct p as [[cl |] log]; cbn [client fetch_log].
  - rewrite handle_historical_run.
    destruct (get_historical_candles cl log (fetch_args request)) as [rows | e] eqn:Hf.
    + split; [| reflexivity]. intros _. exists cl, rows. split; [reflexivity | exact Hf].
    + split.
      * destruct (isinstance e "Exception"); discriminate.
      * intros [cl' [rows [Hcl H]]]. inversion Hcl; subst cl'. congruence.
  - split; [discriminate |]. intros [cl [rows [H _]]]. discriminate.
Qed.

(** ** From startup to every later request *)

(** X13.  What startup decided holds for the whole life of the
    process: after any sequence of requests a data route answers 503
    exactly when the construction of the client had raised (a
    [ValueError], since the process started). *)
Theorem configuration_is_permanent
    (env : Environ) (p0 : Process) (rs : list Request)
    (request : StockPredictionRequest) :
  startup env = Return p0 ->
  (status (fst (handle (POST_historical_candles request) (serve rs p0))) = 503%Z
     <-> is_return (UpstoxClient_init env) = false)
  /\ (status (fst (handle (POST_predict request) (serve rs p0))) = 503%Z
     <-> is_return (UpstoxClient_init env) = false)
  /\ (forall e, UpstoxClient_init env = Raised e -> isinstance e "ValueError" = true).
Proof.
  intros H.
  pose proof (startup_client env p0 H) as Hc.
  pose proof (serve_client rs p0) as Hs.
  destruct (data_status_503 request (serve rs p0)) as [Hh Hp].
  rewrite Hs, Hc in Hh, Hp.
  split; [| split].
  - rewrite Hh. destruct (UpstoxClient_init env); simpl; split; congruence.
  - rewrite Hp. destruct (UpstoxClient_init env); simpl; split; congruence.
  - intros e He. unfold startup in H. rewrite He in H.
    destruct (isinstance e "ValueError"); [reflexivity | discriminate].
Qed.

End RouteProperties.

(** * Further concrete runs *)

Section RouteRuns.
#[local] Existing Instance Demo.collaborators.

Lemma data_route_fetches_once_witness :
  client Demo.configured = Some tt
  /\ fetch_log (snd (handle (POST_historical_candles (Demo.request "TIMEOUT"))
                       Demo.configured)) = [two_day_args "TIMEOUT"]
  /\ fetch_log (snd (handle (POST_predict (Demo.request "INE002A01018"))
                       Demo.configured)) = [two_day_args "INE002A01018"].
Proof.
  destruct (data_route_fetches_once (Demo.request "TIMEOUT") Demo.configured tt eq_refl)
    as [Hh _].
  destruct (data_route_fetches_once (Demo.request "INE002A01018") Demo.configured tt
              eq_refl) as [_ Hp].
  split; [reflexivity |]. split.
  - rewrite Hh. reflexivity.
  - rewrite Hp. reflexivity.
Defined.

Lemma serve_fetch_log_witness :
  client Demo.configured = Some tt
  /\ fetch_log
       (serve [GET_health;
               POST_predict (Demo.request "INE009A01021");
               GET_stocks;
               POST_historical_candles (Demo.request "TIMEOUT");
               GET_root]
          Demo.configured) =
     [two_day_args "INE009A01021"; two_day_args "TIMEOUT"].
Proof.
  split; [reflexivity |].
  rewrite (serve_fetch_log _ Demo.configured tt eq_refl). reflexivity.
Defined.

Lemma unconfigured_never_fetches_witness :
  client Demo.unconfigured = None
  /\ serve [POST_predict (Demo.request "INE002A01018");
            POST_historical_candles (Demo.request "INE002A01018")]
       Demo.unconfigured = Demo.unconfigured
  /\ status (fst (handle (POST_predict (Demo.request "INE002A01018"))
                    (serve [POST_predict (Demo.request "INE002A01018");
                            POST_historical_candles (Demo.request "INE002A01018")]
                       Demo.unconfigured))) = 503%Z.
Proof.
  destruct (unconfigured_never_fetches
              [POST_predict (Demo.request "INE002A01018");
               POST_historical_candles (Demo.request "INE002A01018")]
              Demo.unconfigured (Demo.request "INE002A01018") eq_refl)
    as [Hs [_ Hp]].
  split; [reflexivity |]. split; [exact Hs | exact Hp].
Defined.

Lemma get_routes_leave_process_witness :
  is_get GET_ui = true
  /\ snd (handle GET_ui Demo.configured) = Demo.configured.
Proof.
  split; [reflexivity |].
  apply (get_routes_leave_process GET_ui Demo.configured). reflexivity.
Defined.


Lemma non_Exception_propagates_witness :
  client Interrupted.configured = Some tt
  /\ isinstance Interrupted.keyboard_interrupt "Exception" = false
  /\ fst (predict_stock (ext := Interrupted.collaborators)
            (Demo.request "INE002A01018") Interrupted.configured) =
       Raised Interrupted.keyboard_interrupt
  /\ status (fst (handle (ext := Interrupted.collaborators)
                    (POST_historical_candles (Demo.request "INE002A01018"))
                    Interrupted.configured)) = 500%Z.
Proof.
  destruct (non_Exception_propagates (ext := Interrupted.collaborators)
              (Demo.request "INE002A01018") Interrupted.configured tt
              Interrupted.keyboard_interrupt eq_refl eq_refl eq_refl)
    as [_ [Hp [Hh _]]].
  split; [reflexivity |]. split; [reflexivity |]. split; [exact Hp | exact Hh].
Defined.


Lemma predict_success_only_if_witness :
  status (fst (handle (POST_predict (Demo.request "INE002A01018")) Demo.configured))
    = 200%Z
  /\ exists rows high,
       get_historical_candles tt [] (fetch_args (Demo.request "INE002A01018")) =
         Return rows
       /\ rows <> []
       /\ run_prediction rows = Return high.
Proof.
  split; [reflexivity |].
  destruct (predict_success_only_if (Demo.request "INE002A01018") Demo.configured
              eq_refl) as [cl [rows [high [_ [Hf [Hne [Hrun _]]]]]]].
  destruct cl. exists rows, high.
  split; [exact Hf |]. split; [exact Hne | exact Hrun].
Defined.

(** Rows of 2 and 9 cells do not fit the seven headers. *)
Lemma engine_failure_is_400_witness :
  client Demo.configured = Some tt
  /\ get_historical_candles tt [] (fetch_args (Demo.request "RAGGED")) = Return Demo.ragged
  /\ run_prediction Demo.ragged =
       Raised (Exn (Demo.exception_mro "ValueError") "columns do not match the data")
  /\ handle (POST_predict (Demo.request "RAGGED")) Demo.configured =
       ({| status := 400;
           body := Detail "Prediction error: columns do not match the data" |},
        {| client := Some tt; fetch_log := [two_day_args "RAGGED"] |}).
Proof.
  split; [reflexivity |]. split; [reflexivity |]. split; [reflexivity |].
  apply (engine_failure_is_400 (Demo.request "RAGGED") Demo.configured tt Demo.ragged
           (Exn (Demo.exception_mro "ValueError") "columns do not match the data"));
    [reflexivity | reflexivity | discriminate | reflexivity | reflexivity].
Defined.

Lemma configuration_is_permanent_witness :
  startup (ext := Demo.collaborators) Demo.TokenMissing = Return Demo.unconfigured
  /\ status (fst (handle (POST_predict (Demo.request "INE002A01018"))
                    (serve [GET_health; POST_historical_candles (Demo.request "TIMEOUT")]
                       Demo.unconfigured))) = 503%Z
  /\ startup (ext := Demo.collaborators) Demo.TokenSet = Return Demo.configured
  /\ status (fst (handle (POST_predict (Demo.request "INE002A01018"))
                    (serve [GET_health; POST_historical_candles (Demo.request "TIMEOUT")]
                       Demo.configured))) <> 503%Z.
Proof.
  destruct (configuration_is_permanent (ext := Demo.collaborators)
              Demo.TokenMissing Demo.unconfigured
              [GET_health; POST_historical_candles (Demo.request "TIMEOUT")]
              (Demo.request "INE002A01018") eq_refl) as [_ [Hm _]].
  destruct (configuration_is_permanent (ext := Demo.collaborators)
              Demo.TokenSet Demo.configured
              [GET_health; POST_historical_candles (Demo.request "TIMEOUT")]
              (Demo.request "INE002A01018") eq_refl) as [_ [Hs _]].
  split; [reflexivity |]. split; [apply Hm; reflexivity |].
  split; [reflexivity |]. intros H. apply Hs in H. discriminate H.
Defined.

End RouteRuns.
